(** * api/phone.js: phone-number normalisation and the change counter

    A shallow embedding of [src/api/phone.js]: the pure normaliser
    [normalizePhoneNumber], the namespace resolver [getRedisNamespace]
    and the request [handler] with its Redis get/set calls threaded
    through an explicit connection state.

    Modelling conventions.
    - A JavaScript string is a [list ascii]: one element per code unit,
      restricted to code units below 256.  [length], [take], [drop]
      and [++] are the JS [.length], [substring] and [+].  The two
      regular expressions of the normaliser treat every code unit
      outside ['0'..'9'] alike (it is removed), so nothing is lost for
      the normaliser by the restriction.
    - A JSON body field is a [jsval]: absent, null, a boolean or a
      string.  Numbers, arrays and objects as body fields are outside
      the model.
    - A JS number is a [jsnum]: [NaN] or an exact integer.  The counter
      arithmetic of the handler ([parseInt], [+ 1], [toString]) is exact
      on doubles up to 2^53, which is the range the model is valid for.
    - The CORS headers the handler sets on every response and its
      console output are not modelled. *)

From Stdlib Require Import Ascii String.
From stdpp Require Import gmap list strings.

Open Scope list_scope.

(** ** JavaScript values *)

Module Js.

Abbreviation jsstring := (list ascii).

(** String literals. *)
Definition str (s : string) : jsstring := list_ascii_of_string s.

Inductive jsval : Type :=
| JUndefined
| JNull
| JBool (b : bool)
| JStr (s : jsstring).

Inductive jsnum : Type :=
| NaN
| Int (z : Z).

(** [!s] for a string [s]. *)
Definition isEmpty (s : jsstring) : bool :=
  match s with
  | [] => true
  | _ :: _ => false
  end.

(** [ToBoolean]: the empty string, [false], [null] and [undefined]
    are falsy. *)
Definition truthy (v : jsval) : bool :=
  match v with
  | JUndefined | JNull => false
  | JBool b => b
  | JStr s => negb (isEmpty s)
  end.

(** [v.toString()] for a truthy [v]. *)
Definition toString (v : jsval) : jsstring :=
  match v with
  | JStr s => s
  | JBool true => str "true"
  | JBool false => str "false"
  | JNull => str "null"
  | JUndefined => str "undefined"
  end.

(** [\d] without the unicode flag is ['0'..'9']. *)
Definition isDigit (c : ascii) : bool :=
  (48 <=? nat_of_ascii c) && (nat_of_ascii c <=? 57).

(** [\s] on code units below 256: TAB, LF, VT, FF, CR, space and
    the no-break space. *)
Definition isSpace (c : ascii) : bool :=
  match nat_of_ascii c with
  | 9 | 10 | 11 | 12 | 13 | 32 | 160 => true
  | _ => false
  end.

(** [s.replace(/C/g, '')] for a character class [C]. *)
Definition removeAll (cls : ascii -> bool) (s : jsstring) : jsstring :=
  List.filter (fun c => negb (cls c)) s.

(** [s.startsWith(p)]. *)
Fixpoint startsWith (s p : jsstring) {struct p} : bool :=
  match p, s with
  | [], _ => true
  | _ :: _, [] => false
  | c :: p', d :: s' => Ascii.eqb c d && startsWith s' p'
  end.

(** [s.padStart(n, '0')]. *)
Definition padStart (n : nat) (fill : ascii) (s : jsstring) : jsstring :=
  replicate (n - length s) fill ++ s.

(** [s.trim()]. *)
Fixpoint trimStart (s : jsstring) : jsstring :=
  match s with
  | c :: s' => if isSpace c then trimStart s' else s
  | [] => []
  end.

Definition trim (s : jsstring) : jsstring :=
  rev (trimStart (rev (trimStart s))).

(** [a || b] on strings that may be absent. *)
Definition orElse (a : option jsstring) (b : jsstring) : jsstring :=
  match a with
  | Some (c :: s) => c :: s
  | _ => b
  end.

(** *** Numbers: [parseInt(s, 10)] and [Number.prototype.toString] *)

Definition digitValue (c : ascii) : Z := Z.of_nat (nat_of_ascii c) - 48.

Definition digitChar (d : Z) : ascii := ascii_of_nat (Z.to_nat (48 + d)).

Fixpoint takeDigits (s : jsstring) : jsstring :=
  match s with
  | c :: s' => if isDigit c then c :: takeDigits s' else []
  | [] => []
  end.

(** The mathematical value of a digit string, most significant
    digit first. *)
Definition digitsValue (ds : jsstring) : Z :=
  fold_left (fun acc c => (10 * acc + digitValue c)%Z) ds 0%Z.

(** [parseInt(s, 10)]: leading white space is skipped, one sign is
    read, then the longest run of digits; no digit gives [NaN]. *)
Definition parseInt (s : jsstring) : jsnum :=
  let s := trimStart s in
  let '(sign, s) :=
    match s with
    | "-"%char :: t => ((-1)%Z, t)
    | "+"%char :: t => (1%Z, t)
    | _ => (1%Z, s)
    end in
  match takeDigits s with
  | [] => NaN
  | ds => Int (sign * digitsValue ds)%Z
  end.

Fixpoint decimalDigits (fuel : nat) (n : Z) : jsstring :=
  match fuel with
  | O => []
  | S fuel' =>
      if (n <? 10)%Z then [digitChar n]
      else decimalDigits fuel' (n / 10) ++ [digitChar (n mod 10)]
  end.

(** The decimal numeral of [n >= 0]; [n < 2 ^ (1 + log2 n)] bounds
    the number of digits. *)
Definition decimal (n : Z) : jsstring :=
  decimalDigits (S (Z.to_nat (Z.log2 n))) n.

(** [x.toString()] for a number [x]. *)
Definition numToString (x : jsnum) : jsstring :=
  match x with
  | NaN => str "NaN"
  | Int z => if (z <? 0)%Z then "-"%char :: decimal (- z) else decimal z
  end.

(** [x + 1]. *)
Definition succNum (x : jsnum) : jsnum :=
  match x with
  | NaN => NaN
  | Int z => Int (z + 1)%Z
  end.

Global Instance jsval_eq_dec : EqDecision jsval.
Proof. solve_decision. Defined.

Global Instance jsnum_eq_dec : EqDecision jsnum.
Proof. solve_decision. Defined.

End Js.

Import Js.

(** ** The normaliser *)

Module Phone.

Definition countryCode : jsstring := str "54".
Definition mobilePrefix : jsstring := str "9".
Definition defaultAreaCode : jsstring := str "11".

(** The class [[\s\-\(\)\+]]. *)
Definition isSeparator (c : ascii) : bool :=
  isSpace c
  || Ascii.eqb c "-" || Ascii.eqb c "(" || Ascii.eqb c ")"
  || Ascii.eqb c "+".

(** The two [replace] calls: separators first, then every remaining
    non-digit. *)
Definition clean (s : jsstring) : jsstring :=
  removeAll (fun c => negb (isDigit c)) (removeAll isSeparator s).

(** Step 1, the country code. *)
Definition stripCountry (digits : jsstring) : jsstring :=
  if startsWith digits (str "54") then drop 2 digits
  else if startsWith digits (str "5") then
    drop 2 (str "54" ++ drop 1 digits)
  else drop 2 (countryCode ++ digits).

(** Step 2, the mobile prefix. *)
Definition stripMobile (digits : jsstring) : jsstring :=
  if startsWith digits (str "9") then drop 1 digits
  else drop 1 (mobilePrefix ++ digits).

(** The value of [digits] once steps 1 and 2 are done. *)
Definition localDigits (cleaned : jsstring) : jsstring :=
  stripMobile (stripCountry cleaned).

(** The area code and the local number, as the pair
    [(areaCode, localNumber)]. *)
Definition splitArea (digits : jsstring) : jsstring * jsstring :=
  if 10 <=? length digits then (take 2 digits, drop 2 digits)
  else if (6 <=? length digits) && (length digits <? 10) then
    (defaultAreaCode, digits)
  else (defaultAreaCode, digits).

(** The local number brought to 8 digits. *)
Definition fitLocal (localNumber : jsstring) : jsstring :=
  if 8 <? length localNumber then
    drop (length localNumber - 8) localNumber
  else if length localNumber <? 8 then padStart 8 "0"%char localNumber
  else localNumber.

Definition normalizePhoneNumber (phoneNumber : jsval) : jsstring :=
  if negb (truthy phoneNumber) then []
  else
    let cleaned := clean (toString phoneNumber) in
    if isEmpty cleaned then []
    else
      let digits := localDigits cleaned in
      let '(areaCode, localNumber) := splitArea digits in
      let localNumber := fitLocal localNumber in
      countryCode ++ mobilePrefix ++ areaCode ++ localNumber.

(** The regular expression [^\d{13}$]. *)
Definition is13Digits (s : jsstring) : bool :=
  (length s =? 13) && forallb isDigit s.

End Phone.

Import Phone.

(** ** The Redis connection *)

Module Redis.

(** The error a rejected call carries; [message] is
    [redisError.message]. *)
Record Error : Type := { message : jsstring }.

Inductive Command : Type :=
| CmdGet (key : jsstring)
| CmdSet (key value : jsstring).

(** A connection: the keys of the store, the outcome of the calls to
    come ([Some e]: the call is rejected with [e] and has no effect;
    [None], or no entry left: it succeeds), and the calls issued so
    far, oldest first. *)
Record Conn : Type := {
  kv : gmap jsstring jsstring;
  faults : list (option Error);
  log : list Command
}.

(** An awaited call either throws or returns. *)
Definition M (A : Type) : Type := Conn -> (Error + A) * Conn.

Global Instance M_ret : MRet M := fun A a c => (inr a, c).

Global Instance M_bind : MBind M := fun A B f m c =>
  match m c with
  | (inl e, c') => (inl e, c')
  | (inr a, c') => f a c'
  end.

(** One call: its outcome is taken from [faults]. *)
Definition issue (cmd : Command) (c : Conn) : option Error * Conn :=
  let c' := {| kv := kv c; faults := tail (faults c);
               log := log c ++ [cmd] |} in
  match faults c with
  | Some e :: _ => (Some e, c')
  | _ => (None, c')
  end.

(** The outcome of the [i]-th call to come, counted from 0. *)
Definition outcome (i : nat) (c : Conn) : option Error :=
  mjoin (faults c !! i).

(** [redis.get(key)]: [null] for a missing key. *)
Definition get (key : jsstring) : M (option jsstring) := fun c =>
  match issue (CmdGet key) c with
  | (Some e, c') => (inl e, c')
  | (None, c') => (inr (kv c' !! key), c')
  end.

(** [redis.set(key, value)]. *)
Definition set (key value : jsstring) : M unit := fun c =>
  match issue (CmdSet key value) c with
  | (Some e, c') => (inl e, c')
  | (None, c') =>
      (inr tt, {| kv := <[key := value]> (kv c'); faults := faults c';
                  log := log c' |})
  end.

End Redis.

Import Redis.

(** ** Requests, responses and the handler *)

(** [process.env]. *)
Record Env : Type := {
  REDIS_URL : option jsstring;
  REDIS_NAMESPACE : option jsstring;
  ADMIN_PASSWORD : option jsstring;
  PHONE_NUMBER : option jsstring;
  WHATSAPP_MESSAGE : option jsstring
}.

Inductive Method : Type :=
| OPTIONS
| GET
| POST
| OtherMethod (name : jsstring).

(** The fields [handler] destructures from [req.body]. *)
Record Body : Type := {
  phone : jsval;
  password : jsval;
  reset : jsval
}.

(** [host] is [req?.headers?.host]; [body] is [None] when [req.body]
    is undefined. *)
Record Request : Type := {
  method : Method;
  host : option jsstring;
  body : option Body
}.

(** The texts of the [error] field. *)
Inductive ErrorText : Type :=
| ReadFailed              (* 'Error al obtener el numero de telefono' *)
| WrongPassword           (* 'Contrasena incorrecta' *)
| ResetFailed (cause : jsstring)
                          (* 'Error al resetear el contador: ' + cause *)
| ResetWithoutRedis       (* 'Redis no esta configurado. No se puede resetear el contador.' *)
| PhoneRequired           (* 'Numero de telefono requerido' *)
| PhoneInvalid            (* 'Numero de telefono invalido. El numero debe tener
                             al menos 6 digitos locales para completar 13
                             digitos totales.' *)
| SaveFailed (cause : jsstring)
                          (* 'Error al guardar en Redis: ' + cause + '. Verifica ...' *)
| RedisNotInitialised     (* 'Redis esta configurado pero no se pudo inicializar. ...' *)
| RedisNotConfigured      (* 'Redis no esta configurado. Ve a Vercel ...' *)
| UpdateFailed            (* 'Error al actualizar el numero de telefono' *)
| MethodNotAllowed.       (* 'Metodo no permitido' *)

(** The JSON documents the handler sends. *)
Inductive Json : Type :=
| NoBody
| ReadOk (phone message : jsstring) (changeCount : jsnum)
| ResetOk (changeCount : jsnum)
| UpdateOk (changeCount : jsnum) (normalizedPhone : jsstring)
| Failure (error : ErrorText).

Record Response : Type := {
  status : nat;
  json : Json
}.

Definition defaultPhone : jsstring := str "5491157552283".

(** The default message; its two characters outside ASCII are the code
    units 161 and 237. *)
Definition defaultMessage : jsstring :=
  ascii_of_nat 161 :: str "Buen4s!%20Me%20gust4r" ++
  ascii_of_nat 237 :: str "4%20cre4r%20un%20usu4rio.%20Mi%20nombre%20es:".

Definition defaultPassword : jsstring := str "admin123".

Definition unknownError : jsstring := str "Error desconocido".

(** [process.env.ADMIN_PASSWORD || 'admin123'] *)
Definition adminPassword (env : Env) : jsstring :=
  orElse (ADMIN_PASSWORD env) defaultPassword.

Definition getRedisNamespace (env : Env) (req : Request) : jsstring :=
  let ns := trim (orElse (REDIS_NAMESPACE env) []) in
  if negb (isEmpty ns) then ns
  else
    let host := trim (orElse (host req) []) in
    if negb (isEmpty host) then str "host:" ++ host
    else str "default".

Definition phoneKey (ns : jsstring) : jsstring := ns ++ str ":phone_number".
Definition countKey (ns : jsstring) : jsstring := ns ++ str ":change_count".

(** [countStr ? parseInt(countStr, 10) : 0] *)
Definition readCount (countStr : option jsstring) : jsnum :=
  match countStr with
  | Some (c :: s) => parseInt (c :: s)
  | _ => Int 0
  end.

(** [currentCount ? parseInt(currentCount, 10) + 1 : 1] *)
Definition nextCount (currentCount : option jsstring) : jsnum :=
  match currentCount with
  | Some (c :: s) => succNum (parseInt (c :: s))
  | _ => Int 1
  end.

(** The [try] block of the GET branch: the values of [phoneNumber] and
    [changeCount] when it is left, normally or through [catch]. *)
Definition readRecord (ns : jsstring) (c : Conn)
  : option jsstring * jsnum * Conn :=
  match Redis.get (phoneKey ns) c with
  | (inl _, c1) => (None, Int 0, c1)
  | (inr phoneNumber, c1) =>
      match Redis.get (countKey ns) c1 with
      | (inl _, c2) => (phoneNumber, Int 0, c2)
      | (inr countStr, c2) => (phoneNumber, readCount countStr, c2)
      end
  end.

Definition handleGet (env : Env) (req : Request) (redis : option Conn)
  : Response * option Conn :=
  let '(phoneNumber, changeCount, redis') :=
    match redis with
    | Some c =>
        let '(p, n, c') := readRecord (getRedisNamespace env req) c in
        (p, n, Some c')
    | None => (None, Int 0, None)
    end in
  let phoneNumber := orElse phoneNumber (orElse (PHONE_NUMBER env) defaultPhone) in
  let message := orElse (WHATSAPP_MESSAGE env) defaultMessage in
  ({| status := 200; json := ReadOk phoneNumber message changeCount |}, redis').

(** The [try] block of the update: the phone number is written, then
    the counter is read, incremented and written. *)
Definition saveRecord (ns normalizedPhone : jsstring) : M jsnum :=
  _ ← Redis.set (phoneKey ns) normalizedPhone;
  currentCount ← Redis.get (countKey ns);
  let newCount := nextCount currentCount in
  _ ← Redis.set (countKey ns) (numToString newCount);
  mret newCount.

Definition handleReset (env : Env) (req : Request) (redis : option Conn)
  : Response * option Conn :=
  match redis with
  | Some c =>
      match Redis.set (countKey (getRedisNamespace env req)) (str "0") c with
      | (inr _, c') =>
          ({| status := 200; json := ResetOk (Int 0) |}, Some c')
      | (inl e, c') =>
          ({| status := 500;
              json := Failure (ResetFailed
                        (orElse (Some (message e)) unknownError)) |},
           Some c')
      end
  | None => ({| status := 500; json := Failure ResetWithoutRedis |}, None)
  end.

Definition handleUpdate (env : Env) (req : Request) (phone : jsval)
    (redis : option Conn) : Response * option Conn :=
  if negb (truthy phone) then
    ({| status := 400; json := Failure PhoneRequired |}, redis)
  else
    let normalizedPhone := normalizePhoneNumber phone in
    if negb (length normalizedPhone =? 13) then
      ({| status := 400; json := Failure PhoneInvalid |}, redis)
    else
      match redis with
      | Some c =>
          match saveRecord (getRedisNamespace env req) normalizedPhone c with
          | (inr newCount, c') =>
              ({| status := 200; json := UpdateOk newCount normalizedPhone |},
               Some c')
          | (inl e, c') =>
              ({| status := 500;
                  json := Failure (SaveFailed
                            (orElse (Some (message e)) unknownError)) |},
               Some c')
          end
      | None =>
          ({| status := 500;
              json := Failure
                (match REDIS_URL env with
                 | Some (_ :: _) => RedisNotInitialised
                 | _ => RedisNotConfigured
                 end) |}, None)
      end.

Definition handlePost (env : Env) (req : Request) (redis : option Conn)
  : Response * option Conn :=
  match body req with
  | None => ({| status := 500; json := Failure UpdateFailed |}, redis)
  | Some b =>
      if negb (bool_decide (password b = JStr (adminPassword env))) then
        ({| status := 401; json := Failure WrongPassword |}, redis)
      else if bool_decide (reset b = JBool true) then
        handleReset env req redis
      else handleUpdate env req (phone b) redis
  end.

(** [redis] is the module-level handle: [None] when it is [null]. *)
Definition handler (env : Env) (req : Request) (redis : option Conn)
  : Response * option Conn :=
  match method req with
  | OPTIONS => ({| status := 200; json := NoBody |}, redis)
  | GET => handleGet env req redis
  | POST => handlePost env req redis
  | OtherMethod _ =>
      ({| status := 405; json := Failure MethodNotAllowed |}, redis)
  end.

(** ** Vocabulary of the statements *)

(** The input holds at least one digit. *)
Definition hasDigit (s : jsstring) : bool := existsb isDigit s.

(** A POST that is not a reset, answered with 200 on a connected
    store: a successful update, from connection [c] to [c']. *)
Definition successfulUpdate (env : Env) (req : Request)
    (c : Conn) (resp : Response) (c' : Conn) : Prop :=
  method req = POST
  /\ (exists b, body req = Some b /\ reset b <> JBool true)
  /\ handler env req (Some c) = (resp, Some c')
  /\ status resp = 200.

(** A POST with [reset: true], answered with 200: a successful
    reset. *)
Definition successfulReset (env : Env) (req : Request)
    (c : Conn) (resp : Response) (c' : Conn) : Prop :=
  method req = POST
  /\ (exists b, body req = Some b /\ reset b = JBool true)
  /\ handler env req (Some c) = (resp, Some c')
  /\ status resp = 200.

(** An update whose [try] block is left through [catch]: the store
    failure is reported with status 500. *)
Definition failedUpdate (env : Env) (req : Request)
    (c : Conn) (resp : Response) (c' : Conn) : Prop :=
  method req = POST
  /\ (exists b, body req = Some b /\ reset b <> JBool true)
  /\ handler env req (Some c) = (resp, Some c')
  /\ (exists cause, json resp = Failure (SaveFailed cause)).

(** The number and the message a read falls back to. *)
Definition configuredPhone (env : Env) : jsstring :=
  orElse (PHONE_NUMBER env) defaultPhone.

Definition configuredMessage (env : Env) : jsstring :=
  orElse (WHATSAPP_MESSAGE env) defaultMessage.

(** ** Sample environments, connections and requests *)

Module Sample.

(** No environment variable is set. *)
Definition env : Env :=
  {| REDIS_URL := None; REDIS_NAMESPACE := None; ADMIN_PASSWORD := None;
     PHONE_NUMBER := None; WHATSAPP_MESSAGE := None |}.

(** An empty store on which every call succeeds. *)
Definition fresh : Conn := {| kv := ∅; faults := []; log := [] |}.

Definition post (phone password reset : jsval) : Request :=
  {| method := POST; host := None;
     body := Some {| phone := phone; password := password;
                     reset := reset |} |}.

Definition update (phone : string) : Request :=
  post (JStr (str phone)) (JStr (str "admin123")) JUndefined.

Definition resetCounter : Request :=
  post JUndefined (JStr (str "admin123")) (JBool true).

Definition read : Request :=
  {| method := GET; host := None; body := None |}.

(** The connection a request leaves behind. *)
Definition after (env : Env) (req : Request) (c : Conn) : Conn :=
  default c (handler env req (Some c)).2.

Definition timeout : Error := {| message := str "ETIMEDOUT" |}.

(** A store whose first call succeeds and whose second call is
    rejected. *)
Definition failsSecond (kv : gmap jsstring jsstring) : Conn :=
  {| kv := kv; faults := [None; Some timeout]; log := [] |}.

Definition stored : gmap jsstring jsstring :=
  {[ phoneKey (str "default") := str "5491112345678" ]}.

End Sample.

(** ** Module start and whole requests *)

(** The initialisation of the module-level handle: [newRedis] is the
    constructor [new Redis(url)], which may throw; the handle stays
    [null] when [REDIS_URL] is falsy or the constructor throws. *)
Definition initRedis (env : Env) (newRedis : jsstring -> Error + Conn)
  : option Conn :=
  match REDIS_URL env with
  | Some (c :: url) =>
      match newRedis (c :: url) with
      | inr conn => Some conn
      | inl _ => None
      end
  | _ => None
  end.

(** One request on a connected store: the response and the connection
    it leaves. *)
Definition run (env : Env) (req : Request) (c : Conn) : Response * Conn :=
  let r := handler env req (Some c) in (r.1, default c r.2).

(** The request is a POST that carries the administrator secret. *)
Definition authenticated (env : Env) (req : Request) : Prop :=
  method req = POST
  /\ exists b, body req = Some b /\ password b = JStr (adminPassword env).

(** Every stored number has 13 digits. *)
Definition numbersCanonical (m : gmap jsstring jsstring) : Prop :=
  forall ns p, m !! phoneKey ns = Some p -> is13Digits p = true.

(** ** Properties of the normaliser *)

Abbreviation allDigits := (Forall (fun c => isDigit c = true)).

Section Normaliser.

Implicit Types (s digits : jsstring) (c : ascii).

Lemma isDigit_not_separator c : isDigit c = true -> isSeparator c = false.
Proof. destruct c as [[] [] [] [] [] [] [] []]; vm_compute; congruence. Qed.

Lemma removeAll_id cls s :
  Forall (fun c => cls c = false) s -> removeAll cls s = s.
Proof.
  unfold removeAll. induction 1 as [|c s Hc _ IH]; simpl; [done|].
  by rewrite Hc, IH.
Qed.

Lemma clean_allDigits s : allDigits (clean s).
Proof.
  unfold clean, removeAll. apply Forall_forall. intros c Hc.
  apply list_elem_of_In, filter_In in Hc as [_ Hc].
  by destruct (isDigit c).
Qed.

Lemma clean_id s : allDigits s -> clean s = s.
Proof.
  intros Hs. unfold clean. rewrite (removeAll_id isSeparator).
  - apply removeAll_id. eapply Forall_impl; [exact Hs|].
    intros c Hc; simpl in *. by rewrite Hc.
  - eapply Forall_impl; [exact Hs|]. apply isDigit_not_separator.
Qed.

Lemma stripCountry_cases digits :
  stripCountry digits = drop 2 digits
  \/ stripCountry digits = drop 1 digits
  \/ stripCountry digits = digits.
Proof.
  unfold stripCountry.
  destruct (startsWith digits (str "54")); [by left|].
  destruct (startsWith digits (str "5")); [by right; left|by right; right].
Qed.

Lemma stripMobile_cases digits :
  stripMobile digits = drop 1 digits \/ stripMobile digits = digits.
Proof.
  unfold stripMobile.
  destruct (startsWith digits (str "9")); [by left|by right].
Qed.

Lemma localDigits_allDigits digits :
  allDigits digits -> allDigits (localDigits digits).
Proof.
  intros H. unfold localDigits.
  destruct (stripMobile_cases (stripCountry digits)) as [-> | ->];
    destruct (stripCountry_cases digits) as [-> | [-> | ->]];
    repeat apply Forall_drop; done.
Qed.

Lemma splitArea_spec digits areaCode localNumber :
  allDigits digits ->
  splitArea digits = (areaCode, localNumber) ->
  length areaCode = 2 /\ allDigits areaCode /\ allDigits localNumber.
Proof.
  intros H. unfold splitArea.
  destruct (10 <=? length digits) eqn:Hlen.
  - apply Nat.leb_le in Hlen. intros [= <- <-].
    rewrite length_take. split; [lia|].
    split; [by apply Forall_take | by apply Forall_drop].
  - destruct (_ && _); intros [= <- <-];
      (split; [done|split; [|done]]);
      repeat constructor.
Qed.

Lemma fitLocal_spec localNumber :
  allDigits localNumber ->
  length (fitLocal localNumber) = 8 /\ allDigits (fitLocal localNumber).
Proof.
  intros H. unfold fitLocal, padStart.
  destruct (8 <? length localNumber) eqn:Hgt.
  - apply Nat.ltb_lt in Hgt. rewrite length_drop.
    split; [lia | by apply Forall_drop].
  - apply Nat.ltb_ge in Hgt.
    destruct (length localNumber <? 8) eqn:Hlt.
    + rewrite length_app, length_replicate.
      split; [lia|]. apply Forall_app. split; [|done].
      by apply Forall_replicate.
    + apply Nat.ltb_ge in Hlt. split; [lia | done].
Qed.

(** The result is the empty string or has the canonical form. *)
Lemma normalize_form (v : jsval) :
  (normalizePhoneNumber v = []
     /\ (truthy v = false \/ clean (toString v) = []))
  \/ (truthy v = true /\ clean (toString v) <> [] /\
      exists areaCode localNumber,
        normalizePhoneNumber v = str "549" ++ areaCode ++ localNumber
        /\ length areaCode = 2 /\ length localNumber = 8
        /\ allDigits areaCode /\ allDigits localNumber).
Proof.
  unfold normalizePhoneNumber.
  destruct (truthy v); simpl; [|left; auto].
  destruct (clean (toString v)) as [|c0 cleaned] eqn:Hc; [left; auto|right].
  split; [done|]. split; [done|]. cbn [isEmpty]. rewrite <- Hc.
  pose proof (localDigits_allDigits _ (clean_allDigits (toString v))) as Hd.
  destruct (splitArea _) as [areaCode localNumber] eqn:Hsplit.
  destruct (splitArea_spec _ _ _ Hd Hsplit) as (Ha & HaD & HlD).
  destruct (fitLocal_spec _ HlD) as [Hl HlD'].
  exists areaCode, (fitLocal localNumber). done.
Qed.

Lemma canonical_13 areaCode localNumber :
  length areaCode = 2 -> length localNumber = 8 ->
  allDigits areaCode -> allDigits localNumber ->
  length (str "549" ++ areaCode ++ localNumber) = 13
  /\ allDigits (str "549" ++ areaCode ++ localNumber).
Proof.
  intros Ha Hl HaD HlD. rewrite !length_app, Ha, Hl. split; [done|].
  repeat (apply Forall_app; split); try done. repeat constructor.
Qed.

Lemma normalize_canonical areaCode localNumber :
  length areaCode = 2 -> length localNumber = 8 ->
  allDigits areaCode -> allDigits localNumber ->
  normalizePhoneNumber (JStr (str "549" ++ areaCode ++ localNumber))
  = str "549" ++ areaCode ++ localNumber.
Proof.
  intros Ha Hl HaD HlD.
  destruct (canonical_13 _ _ Ha Hl HaD HlD) as [_ HD].
  unfold normalizePhoneNumber.
  change (truthy _) with true. cbv beta iota zeta. simpl negb. cbv iota.
  cbn [toString]. rewrite (clean_id _ HD).
  change (isEmpty _) with false. cbv iota.
  change (localDigits _) with (areaCode ++ localNumber).
  unfold splitArea. rewrite length_app, Ha, Hl. simpl Nat.leb. cbv iota.
  rewrite take_app_length', drop_app_length' by done.
  unfold fitLocal. rewrite Hl. done.
Qed.

Lemma is13Digits_spec s :
  is13Digits s = true <-> length s = 13 /\ allDigits s.
Proof.
  unfold is13Digits. rewrite andb_true_iff, Nat.eqb_eq.
  rewrite forallb_forall, Forall_forall.
  setoid_rewrite list_elem_of_In. done.
Qed.

End Normaliser.

(** ** Properties of the counter arithmetic *)

Section Numbers.

Implicit Types (s ds : jsstring) (n d : Z).

Lemma digitChar_spec d :
  (0 <= d < 10)%Z ->
  isDigit (digitChar d) = true /\ digitValue (digitChar d) = d.
Proof.
  intros Hd. unfold isDigit, digitValue, digitChar.
  rewrite nat_ascii_embedding by lia.
  split; [|lia].
  apply andb_true_iff. split; apply Nat.leb_le; lia.
Qed.

Lemma digitsValue_snoc ds c :
  digitsValue (ds ++ [c]) = (10 * digitsValue ds + digitValue c)%Z.
Proof. unfold digitsValue. by rewrite fold_left_app. Qed.

Lemma takeDigits_id ds : allDigits ds -> takeDigits ds = ds.
Proof.
  induction 1 as [|c ds Hc _ IH]; simpl; [done|]. by rewrite Hc, IH.
Qed.

(** A string of digits is read back as its value. *)
Lemma parseInt_digits ds :
  allDigits ds -> ds <> [] -> parseInt ds = Int (digitsValue ds).
Proof.
  intros Hds Hne. destruct ds as [|c ds]; [done|].
  pose proof (takeDigits_id _ Hds) as Htake.
  apply Forall_cons in Hds as [Hc _].
  unfold parseInt.
  assert (trimStart (c :: ds) = c :: ds) as ->.
  { simpl. destruct c as [[] [] [] [] [] [] [] []]; done. }
  assert (c <> "-"%char /\ c <> "+"%char) as [Hm Hp].
  { split; intros ->; done. }
  destruct c as [[] [] [] [] [] [] [] []]; try done;
    rewrite Htake; f_equal; lia.
Qed.

Lemma decimalDigits_spec fuel n :
  (0 <= n < 2 ^ Z.of_nat (S fuel))%Z ->
  allDigits (decimalDigits (S fuel) n)
  /\ decimalDigits (S fuel) n <> []
  /\ digitsValue (decimalDigits (S fuel) n) = n.
Proof.
  revert n. induction fuel as [|fuel IH]; intros n Hn.
  - assert ((n <? 10)%Z = true) as Hlt.
    { apply Z.ltb_lt. change (2 ^ Z.of_nat 1)%Z with 2%Z in Hn. lia. }
    simpl. rewrite Hlt.
    destruct (digitChar_spec n) as [Hd Hv]; [lia|].
    split; [by repeat constructor|]. split; [done|].
    unfold digitsValue. simpl. lia.
  - change (decimalDigits (S (S fuel)) n) with
      (if (n <? 10)%Z then [digitChar n]
       else decimalDigits (S fuel) (n / 10) ++ [digitChar (n mod 10)]).
    destruct (n <? 10)%Z eqn:Hlt.
    + apply Z.ltb_lt in Hlt.
      destruct (digitChar_spec n) as [Hd Hv]; [lia|].
      split; [by repeat constructor|]. split; [done|].
      unfold digitsValue. simpl. lia.
    + apply Z.ltb_ge in Hlt.
      destruct (IH (n / 10)%Z) as (HD & _ & HV).
      { split; [apply Z.div_pos; lia|].
        apply Z.div_lt_upper_bound; [lia|].
        rewrite (Nat2Z.inj_succ (S fuel)), Z.pow_succ_r in Hn by lia.
        lia. }
      destruct (digitChar_spec (n mod 10)) as [Hd Hv].
      { apply Z.mod_pos_bound. lia. }
      split; [apply Forall_app; split; [done|by repeat constructor]|].
      split; [by destruct (decimalDigits _ _)|].
      rewrite digitsValue_snoc, HV, Hv.
      symmetry. apply Z.div_mod. lia.
Qed.

Lemma decimal_spec n :
  (0 <= n)%Z ->
  allDigits (decimal n) /\ decimal n <> [] /\ digitsValue (decimal n) = n.
Proof.
  intros Hn. apply decimalDigits_spec. split; [done|].
  rewrite Nat2Z.inj_succ, Z2Nat.id by apply Z.log2_nonneg.
  destruct (decide (n = 0%Z)) as [-> | Hne]; [done|].
  apply Z.log2_spec. lia.
Qed.

(** A counter written by the handler is read back unchanged. *)
Lemma parseInt_numToString n :
  (0 <= n)%Z -> parseInt (numToString (Int n)) = Int n.
Proof.
  intros Hn. unfold numToString.
  assert ((n <? 0)%Z = false) as -> by (apply Z.ltb_ge; lia).
  destruct (decimal_spec n Hn) as (HD & Hne & HV).
  by rewrite parseInt_digits, HV.
Qed.

Lemma numToString_nonempty n : (0 <= n)%Z -> numToString (Int n) <> [].
Proof.
  intros Hn. unfold numToString.
  assert ((n <? 0)%Z = false) as -> by (apply Z.ltb_ge; lia).
  by destruct (decimal_spec n Hn) as (_ & Hne & _).
Qed.

(** What the handler computes from a counter it wrote itself. *)
Lemma nextCount_numToString n :
  (0 <= n)%Z -> nextCount (Some (numToString (Int n))) = Int (n + 1).
Proof.
  intros Hn. unfold nextCount.
  pose proof (numToString_nonempty n Hn) as Hne.
  pose proof (parseInt_numToString n Hn) as Hp.
  destruct (numToString (Int n)) as [|c s]; [done|]. by rewrite Hp.
Qed.


End Numbers.

(** ** Properties of the store calls *)

Section Store.

Implicit Types (ns key value : jsstring) (c : Conn).

Lemma phoneKey_countKey ns : phoneKey ns <> countKey ns.
Proof. unfold phoneKey, countKey. intros H%app_inv_head. done. Qed.

Lemma get_ok key c :
  outcome 0 c = None ->
  exists c', Redis.get key c = (inr (kv c !! key), c')
             /\ kv c' = kv c /\ faults c' = tail (faults c)
             /\ log c' = log c ++ [CmdGet key].
Proof.
  unfold outcome, Redis.get, issue.
  destruct (faults c) as [|[e|] fs]; simpl; [|done|]; eauto 10.
Qed.

Lemma get_fails key c e :
  outcome 0 c = Some e ->
  exists c', Redis.get key c = (inl e, c')
             /\ kv c' = kv c /\ faults c' = tail (faults c).
Proof.
  unfold outcome, Redis.get, issue.
  destruct (faults c) as [|[e'|] fs]; simpl; [done| |done].
  intros [= ->]. eauto.
Qed.

Lemma set_ok key value c :
  outcome 0 c = None ->
  exists c', Redis.set key value c = (inr tt, c')
             /\ kv c' = <[key := value]> (kv c)
             /\ faults c' = tail (faults c)
             /\ log c' = log c ++ [CmdSet key value].
Proof.
  unfold outcome, Redis.set, issue.
  destruct (faults c) as [|[e|] fs]; simpl; [|done|]; eauto 10.
Qed.

Lemma set_fails key value c e :
  outcome 0 c = Some e ->
  exists c', Redis.set key value c = (inl e, c')
             /\ kv c' = kv c /\ faults c' = tail (faults c).
Proof.
  unfold outcome, Redis.set, issue.
  destruct (faults c) as [|[e'|] fs]; simpl; [done| |done].
  intros [= ->]. eauto.
Qed.

Lemma outcome_tail i c c' :
  faults c' = tail (faults c) -> outcome i c' = outcome (S i) c.
Proof.
  unfold outcome. intros ->. by destruct (faults c).
Qed.

(** The four ways through the [try] block of the update. *)
Lemma saveRecord_cases ns normalizedPhone c :
  let written := <[phoneKey ns := normalizedPhone]> (kv c) in
  let newCount := nextCount (kv c !! countKey ns) in
  exists c',
    match outcome 0 c, outcome 1 c, outcome 2 c with
    | Some e, _, _ =>
        saveRecord ns normalizedPhone c = (inl e, c') /\ kv c' = kv c
    | None, Some e, _ | None, None, Some e =>
        saveRecord ns normalizedPhone c = (inl e, c') /\ kv c' = written
    | None, None, None =>
        saveRecord ns normalizedPhone c = (inr newCount, c')
        /\ kv c' = <[countKey ns := numToString newCount]> written
    end.
Proof.
  intros written newCount. unfold saveRecord, mbind, M_bind, mret, M_ret.
  destruct (outcome 0 c) as [e0|] eqn:H0.
  { destruct (set_fails (phoneKey ns) normalizedPhone c e0 H0)
      as (c1 & -> & Hkv & _). eauto. }
  destruct (set_ok (phoneKey ns) normalizedPhone c H0)
    as (c1 & -> & Hkv1 & Hf1 & _).
  pose proof (outcome_tail 0 c c1 Hf1) as H1'.
  pose proof (outcome_tail 1 c c1 Hf1) as H2'.
  destruct (outcome 1 c) as [e1|] eqn:H1.
  { destruct (get_fails (countKey ns) c1 e1 H1') as (c2 & -> & Hkv2 & _).
    exists c2. by rewrite Hkv2, Hkv1. }
  destruct (get_ok (countKey ns) c1 H1') as (c2 & -> & Hkv2 & Hf2 & _).
  pose proof (outcome_tail 0 c1 c2 Hf2) as H2''. rewrite H2' in H2''.
  assert (kv c1 !! countKey ns = kv c !! countKey ns) as ->.
  { rewrite Hkv1. apply lookup_insert_ne, phoneKey_countKey. }
  fold newCount.
  destruct (outcome 2 c) as [e2|] eqn:H2.
  { destruct (set_fails (countKey ns) (numToString newCount) c2 e2 H2'')
      as (c3 & -> & Hkv3 & _).
    exists c3. by rewrite Hkv3, Hkv2, Hkv1. }
  destruct (set_ok (countKey ns) (numToString newCount) c2 H2'')
    as (c3 & -> & Hkv3 & _).
  exists c3. by rewrite Hkv3, Hkv2, Hkv1.
Qed.

End Store.

(** ** The normaliser: the stated properties *)

Lemma clean_filter (s : jsstring) : clean s = List.filter isDigit s.
Proof.
  unfold clean, removeAll. induction s as [|c s IH]; simpl; [done|].
  destruct (isDigit c) eqn:Hd.
  - rewrite (isDigit_not_separator c Hd). simpl. by rewrite Hd, IH.
  - destruct (isSeparator c); simpl; [done|]. by rewrite Hd.
Qed.

Lemma clean_nil_iff (s : jsstring) : clean s = [] <-> hasDigit s = false.
Proof.
  rewrite clean_filter. unfold hasDigit.
  induction s as [|c s IH]; simpl; [done|].
  destruct (isDigit c); simpl; [|done]. split; done.
Qed.

Lemma hasDigit_iff (s : jsstring) :
  hasDigit s = true <-> exists c, c ∈ s /\ isDigit c = true.
Proof.
  unfold hasDigit. rewrite existsb_exists.
  by setoid_rewrite list_elem_of_In.
Qed.

(** The result has 13 digits exactly when the input is truthy and holds
    a digit. *)
Lemma normalize_13_iff (v : jsval) :
  is13Digits (normalizePhoneNumber v) = true
  <-> truthy v = true /\ hasDigit (toString v) = true.
Proof.
  rewrite is13Digits_spec.
  assert (hasDigit (toString v) = true <-> clean (toString v) <> []) as ->.
  { split.
    - intros H Hc%clean_nil_iff. congruence.
    - intros H. apply not_false_iff_true. by intros Hc%clean_nil_iff. }
  destruct (normalize_form v) as [[-> Hv] | (Ht & Hc & a & l & -> & Hn)].
  - split; [by intros [? _]|]. intros [Ht Hc]. destruct Hv; congruence.
  - split; [done|]. intros _. destruct Hn as (? & ? & ? & ?).
    by apply canonical_13.
Qed.

Lemma normalize_length (v : jsval) :
  (length (normalizePhoneNumber v) =? 13) = is13Digits (normalizePhoneNumber v).
Proof.
  unfold is13Digits.
  destruct (normalize_form v) as [[-> _] | (_ & _ & a & l & -> & Hn)];
    [done|].
  destruct Hn as (Ha & Hl & HaD & HlD).
  destruct (canonical_13 a l Ha Hl HaD HlD) as [Hlen HD].
  assert (forallb isDigit (str "549" ++ a ++ l) = true) as ->.
  { apply forallb_forall. intros c Hc%list_elem_of_In.
    by eapply Forall_forall in HD. }
  by rewrite andb_true_r.
Qed.

(** C1. Every string of 6 to 13 digits that does not already have 13
    digits is normalised to a string of length exactly 13 that matches
    [^\d{13}$]. *)
Theorem C1_digit_strings_normalise_to_13_digits (s : jsstring) :
  allDigits s -> 6 <= length s <= 13 -> length s <> 13 ->
  length (normalizePhoneNumber (JStr s)) = 13
  /\ is13Digits (normalizePhoneNumber (JStr s)) = true.
Proof.
  intros Hs Hlen _.
  assert (is13Digits (normalizePhoneNumber (JStr s)) = true) as H13.
  { apply normalize_13_iff. destruct s as [|c s]; [simpl in Hlen; lia|].
    split; [done|]. apply Forall_cons in Hs as [Hc _].
    unfold hasDigit. simpl. by rewrite Hc. }
  split; [|done]. by apply is13Digits_spec in H13 as [? _].
Qed.

Lemma C1_witness :
  length (normalizePhoneNumber (JStr (str "123456"))) = 13
  /\ is13Digits (normalizePhoneNumber (JStr (str "123456"))) = true.
Proof.
  apply (C1_digit_strings_normalise_to_13_digits (str "123456")).
  - repeat constructor.
  - simpl. lia.
  - simpl. lia.
Defined.

(** C4. The normaliser is idempotent on its own output: whenever the
    normalisation of an input is a 13-digit string, normalising that
    string gives it back. *)
Theorem C4_normalise_idempotent (x : jsval) :
  is13Digits (normalizePhoneNumber x) = true ->
  normalizePhoneNumber (JStr (normalizePhoneNumber x))
  = normalizePhoneNumber x.
Proof.
  intros H13.
  destruct (normalize_form x) as [[Hn _] | (_ & _ & a & l & Hn & Hshape)].
  - by rewrite Hn in H13.
  - rewrite Hn. destruct Hshape as (Ha & Hl & HaD & HlD).
    by apply normalize_canonical.
Qed.

Lemma C4_witness :
  normalizePhoneNumber
    (JStr (normalizePhoneNumber (JStr (str "15 1234 5678"))))
  = normalizePhoneNumber (JStr (str "15 1234 5678")).
Proof.
  apply (C4_normalise_idempotent (JStr (str "15 1234 5678"))).
  vm_compute. reflexivity.
Defined.

(** C5. The normaliser maps each example of the specification to the
    13-digit output stated for it. *)
Theorem C5_listed_examples :
  normalizePhoneNumber (JStr (str "+54 11 4344 3600")) = str "5491143443600"
  /\ normalizePhoneNumber (JStr (str "11 1234 5678")) = str "5491112345678"
  /\ normalizePhoneNumber (JStr (str "15 1234 5678")) = str "5491512345678"
  /\ normalizePhoneNumber (JStr (str "591157542802")) = str "5491157542802"
  /\ normalizePhoneNumber (JStr (str "(11) 1234-5678")) = str "5491112345678".
Proof. repeat split; vm_compute; reflexivity. Qed.

(** ** The handler: the paths of a POST *)

Section Post.

Context (env : Env) (req : Request) (b : Body).
Hypothesis Hmethod : method req = POST.
Hypothesis Hbody : body req = Some b.

Lemma post_wrong_password redis :
  password b <> JStr (adminPassword env) ->
  handler env req redis
  = ({| status := 401; json := Failure WrongPassword |}, redis).
Proof.
  intros Hpw. unfold handler, handlePost. rewrite Hmethod, Hbody.
  by rewrite bool_decide_eq_false_2.
Qed.

Lemma post_reset redis :
  password b = JStr (adminPassword env) -> reset b = JBool true ->
  handler env req redis = handleReset env req redis.
Proof.
  intros Hpw Hreset. unfold handler, handlePost. rewrite Hmethod, Hbody.
  by rewrite (bool_decide_eq_true_2 _ Hpw), (bool_decide_eq_true_2 _ Hreset).
Qed.

Lemma post_update redis :
  password b = JStr (adminPassword env) -> reset b <> JBool true ->
  handler env req redis = handleUpdate env req (phone b) redis.
Proof.
  intros Hpw Hreset. unfold handler, handlePost. rewrite Hmethod, Hbody.
  by rewrite (bool_decide_eq_true_2 _ Hpw), (bool_decide_eq_false_2 _ Hreset).
Qed.

(** A POST answered with anything but 401 carried the right
    password. *)
Lemma post_authenticated redis :
  status (handler env req redis).1 <> 401 ->
  password b = JStr (adminPassword env).
Proof.
  intros Hst. destruct (decide (password b = JStr (adminPassword env)))
    as [|Hpw]; [done|].
  by rewrite (post_wrong_password redis Hpw) in Hst.
Qed.

End Post.

(** The update answers 400 exactly for a falsy input or one without a
    digit; the second test, on the length, is the one that stops the
    truthy inputs without a digit. *)
Lemma handleUpdate_rejects env req (v : jsval) redis :
  (status (handleUpdate env req v redis).1 = 400
     <-> truthy v = false \/ hasDigit (toString v) = false)
  /\ ((handleUpdate env req v redis).1
        = {| status := 400; json := Failure PhoneInvalid |}
      <-> truthy v = true /\ hasDigit (toString v) = false).
Proof.
  unfold handleUpdate. rewrite normalize_length.
  pose proof (normalize_13_iff v) as H13.
  destruct (truthy v); simpl.
  2:{ split; [split; auto|]. split; [done|]. by intros [? _]. }
  destruct (is13Digits (normalizePhoneNumber v)); simpl.
  - assert (hasDigit (toString v) = true) as -> by by apply H13.
    assert (forall r : Response * option Conn, status r.1 <> 400 ->
              (status r.1 = 400 <-> true = false \/ true = false)
              /\ (r.1 = {| status := 400; json := Failure PhoneInvalid |}
                  <-> true = true /\ true = false)) as Hne.
    { intros r Hr. split; split; try done.
      - by intros [|].
      - intros Heq. by rewrite Heq in Hr.
      - by intros [_ ?]. }
    apply Hne. destruct redis as [c|]; [|done].
    by destruct (saveRecord _ _ c) as [[e|n] c'].
  - destruct (hasDigit (toString v)).
    + by destruct H13 as [_ H13]; specialize (H13 (conj eq_refl eq_refl)).
    + split; [split; auto|]. done.
Qed.

(** C3. Every input string holding at least one digit is normalised to
    exactly 13 digits, the single digit "1" to "5491100000001"; the
    length of the result differs from 13 exactly for the inputs that are
    falsy or hold no digit, and those are exactly the inputs an
    authenticated update answers with the invalid-input status 400
    (the falsy ones at the test [!phone], the others at the test on the
    length). *)
Theorem C3_any_digit_gives_13_digits :
  (forall s : jsstring,
      (exists c, c ∈ s /\ isDigit c = true) ->
      length (normalizePhoneNumber (JStr s)) = 13
      /\ is13Digits (normalizePhoneNumber (JStr s)) = true)
  /\ normalizePhoneNumber (JStr (str "1")) = str "5491100000001"
  /\ (forall v : jsval,
        length (normalizePhoneNumber v) <> 13
        <-> truthy v = false \/ hasDigit (toString v) = false)
  /\ (forall env req b redis,
        method req = POST -> body req = Some b ->
        password b = JStr (adminPassword env) -> reset b <> JBool true ->
        (status (handler env req redis).1 = 400
         <-> truthy (phone b) = false
             \/ hasDigit (toString (phone b)) = false)
        /\ ((handler env req redis).1
              = {| status := 400; json := Failure PhoneInvalid |}
            <-> truthy (phone b) = true
                /\ hasDigit (toString (phone b)) = false)).
Proof.
  split; [|split; [|split]].
  - intros s Hs%hasDigit_iff.
    assert (is13Digits (normalizePhoneNumber (JStr s)) = true) as H13.
    { apply normalize_13_iff. split; [|done].
      destruct s as [|c s]; [done|done]. }
    split; [|done]. by apply is13Digits_spec in H13 as [? _].
  - vm_compute. reflexivity.
  - intros v. rewrite <- Nat.eqb_neq, normalize_length.
    pose proof (normalize_13_iff v) as H13.
    destruct (is13Digits (normalizePhoneNumber v)).
    + destruct H13 as [H _]. destruct (H eq_refl) as [-> ->].
      intuition congruence.
    + split; [intros _|done].
      destruct (truthy v); [|by left]. destruct (hasDigit (toString v));
        [|by right]. destruct H13 as [_ H13].
      by specialize (H13 (conj eq_refl eq_refl)).
  - intros env req b redis Hm Hb Hpw Hreset.
    rewrite (post_update env req b Hm Hb redis Hpw Hreset).
    apply handleUpdate_rejects.
Qed.

Lemma C3_witness :
  (length (normalizePhoneNumber (JStr (str "tel. 7"))) = 13
   /\ is13Digits (normalizePhoneNumber (JStr (str "tel. 7"))) = true)
  /\ (status (handler Sample.env (Sample.update "n/a") None).1 = 400
      <-> truthy (JStr (str "n/a")) = false
          \/ hasDigit (toString (JStr (str "n/a"))) = false).
Proof.
  destruct C3_any_digit_gives_13_digits as (Hdigit & _ & _ & Hpost).
  split.
  - apply (Hdigit (str "tel. 7")). exists "7"%char.
    split; [repeat constructor|reflexivity].
  - apply (Hpost Sample.env (Sample.update "n/a")
             {| phone := JStr (str "n/a"); password := JStr (str "admin123");
                reset := JUndefined |} None);
      [reflexivity|reflexivity|reflexivity|discriminate].
Defined.

(** C8. A POST whose password differs from the administrator secret is
    answered with the invalid-credential error, and the connection is
    handed back as it was: no call is issued, so neither the stored
    number nor the stored counter changes. *)
Theorem C8_wrong_password_touches_nothing
    (env : Env) (req : Request) (b : Body) (redis : option Conn) :
  method req = POST -> body req = Some b ->
  password b <> JStr (adminPassword env) ->
  handler env req redis
  = ({| status := 401; json := Failure WrongPassword |}, redis).
Proof. intros Hm Hb Hpw. by apply (post_wrong_password env req b). Qed.

Lemma C8_witness :
  handler Sample.env
    (Sample.post (JStr (str "11 1234 5678")) (JStr (str "guess")) JUndefined)
    (Some Sample.fresh)
  = ({| status := 401; json := Failure WrongPassword |}, Some Sample.fresh).
Proof.
  apply (C8_wrong_password_touches_nothing Sample.env _
           {| phone := JStr (str "11 1234 5678");
              password := JStr (str "guess"); reset := JUndefined |}).
  - reflexivity.
  - reflexivity.
  - vm_compute. discriminate.
Defined.

(** C2. The code at the one-digit input "1": a single local digit is
    left after the country code and the mobile prefix have been handled,
    and the authenticated update is nevertheless answered with 200 and
    the padded number is stored. *)
Theorem C2_one_digit_update_is_stored :
  let req := Sample.update "1" in
  length (localDigits (clean (str "1"))) = 1
  /\ (handler Sample.env req (Some Sample.fresh)).1
     = {| status := 200; json := UpdateOk (Int 1) (str "5491100000001") |}
  /\ kv (Sample.after Sample.env req Sample.fresh) !! phoneKey (str "default")
     = Some (str "5491100000001").
Proof. vm_compute. done. Qed.

(** ** The handler: updates and resets *)

Lemma successfulUpdate_inv env req c resp c' :
  successfulUpdate env req c resp c' ->
  let ns := getRedisNamespace env req in
  let newCount := nextCount (kv c !! countKey ns) in
  exists b,
    body req = Some b
    /\ is13Digits (normalizePhoneNumber (phone b)) = true
    /\ resp = {| status := 200;
                 json := UpdateOk newCount (normalizePhoneNumber (phone b)) |}
    /\ kv c' = <[countKey ns := numToString newCount]>
                 (<[phoneKey ns := normalizePhoneNumber (phone b)]> (kv c)).
Proof.
  intros (Hm & (b & Hb & Hreset) & Hh & Hst) ns newCount.
  assert (password b = JStr (adminPassword env)) as Hpw.
  { apply (post_authenticated env req b Hm Hb (Some c)). rewrite Hh. simpl.
    by rewrite Hst. }
  rewrite (post_update env req b Hm Hb _ Hpw Hreset) in Hh.
  unfold handleUpdate in Hh. rewrite normalize_length in Hh.
  exists b. split; [done|].
  destruct (truthy (phone b)); simpl in Hh;
    [|injection Hh as <- _; done].
  destruct (is13Digits (normalizePhoneNumber (phone b))); simpl in Hh;
    [|injection Hh as <- _; done].
  split; [done|].
  destruct (saveRecord_cases ns (normalizePhoneNumber (phone b)) c)
    as (c1 & Hcases).
  fold ns in Hh.
  destruct (outcome 0 c), (outcome 1 c), (outcome 2 c);
    destruct Hcases as [Hsave Hkv]; rewrite Hsave in Hh;
    injection Hh as <- Hc; subst; done.
Qed.

(** C6. Every successful update advances the stored counter by exactly
    1, an absent counter counting as 0; two successful updates in a row
    in one namespace, starting without a stored counter, give the
    counter values 1 and then 2. *)
Theorem C6_update_increments_counter :
  (forall env req c resp c',
      successfulUpdate env req c resp c' ->
      let key := countKey (getRedisNamespace env req) in
      (kv c !! key = None ->
       kv c' !! key = Some (str "1")
       /\ exists p, json resp = UpdateOk (Int 1) p)
      /\ (forall n : Z,
            (0 <= n < 2 ^ 53)%Z ->
            kv c !! key = Some (numToString (Int n)) ->
            kv c' !! key = Some (numToString (Int (n + 1)))
            /\ exists p, json resp = UpdateOk (Int (n + 1)) p))
  /\ (forall env req1 req2 c0 resp1 c1 resp2 c2,
        successfulUpdate env req1 c0 resp1 c1 ->
        successfulUpdate env req2 c1 resp2 c2 ->
        getRedisNamespace env req1 = getRedisNamespace env req2 ->
        let key := countKey (getRedisNamespace env req1) in
        kv c0 !! key = None ->
        (kv c1 !! key = Some (str "1")
         /\ exists p, json resp1 = UpdateOk (Int 1) p)
        /\ (kv c2 !! key = Some (str "2")
            /\ exists p, json resp2 = UpdateOk (Int 2) p)).
Proof.
  assert (forall env req c resp c',
      successfulUpdate env req c resp c' ->
      let key := countKey (getRedisNamespace env req) in
      (kv c !! key = None ->
       kv c' !! key = Some (str "1")
       /\ exists p, json resp = UpdateOk (Int 1) p)
      /\ (forall n : Z,
            (0 <= n < 2 ^ 53)%Z ->
            kv c !! key = Some (numToString (Int n)) ->
            kv c' !! key = Some (numToString (Int (n + 1)))
            /\ exists p, json resp = UpdateOk (Int (n + 1)) p)) as Hstep.
  { intros env req c resp c' Hok key.
    destruct (successfulUpdate_inv _ _ _ _ _ Hok) as (b & _ & _ & -> & ->).
    fold key. rewrite lookup_insert_eq. split.
    - intros ->. simpl. eauto.
    - intros n [Hn _] ->. rewrite nextCount_numToString by done.
      simpl. eauto. }
  split; [exact Hstep|].
  intros env req1 req2 c0 resp1 c1 resp2 c2 Hok1 Hok2 Hns key Hnone.
  destruct (Hstep _ _ _ _ _ Hok1) as [Hfirst _].
  destruct (Hfirst Hnone) as [Hkv1 Hresp1]. fold key in Hkv1.
  split; [done|].
  destruct (Hstep _ _ _ _ _ Hok2) as [_ Hnext].
  rewrite <- Hns in Hnext. fold key in Hnext.
  apply (Hnext 1%Z); [lia|]. by rewrite Hkv1.
Qed.

(** Runs the handler on a sample request to settle one of the three
    predicates above. *)
Ltac run_sample :=
  split; [reflexivity|];
  split; [eexists; split; [reflexivity|first [discriminate|reflexivity]]|];
  split; [vm_compute; reflexivity|];
  first [reflexivity|by eexists].

Lemma C6_witness :
  let req1 := Sample.update "11 1234 5678" in
  let req2 := Sample.update "15 1234 5678" in
  let c1 := Sample.after Sample.env req1 Sample.fresh in
  let c2 := Sample.after Sample.env req2 c1 in
  let key := countKey (str "default") in
  (kv c1 !! key = Some (str "1")
   /\ exists p, json (handler Sample.env req1 (Some Sample.fresh)).1
                = UpdateOk (Int 1) p)
  /\ (kv c2 !! key = Some (str "2")
      /\ exists p, json (handler Sample.env req2 (Some c1)).1
                   = UpdateOk (Int 2) p).
Proof.
  intros req1 req2 c1 c2 key.
  apply (proj2 C6_update_increments_counter Sample.env req1 req2
           Sample.fresh _ c1 _ c2).
  - run_sample.
  - run_sample.
  - reflexivity.
  - vm_compute. reflexivity.
Defined.

(** C7. Whatever the counter was, a successful reset leaves the stored
    counter at 0 and the stored number as it was. *)
Theorem C7_reset_zeroes_counter_only
    (env : Env) (req : Request) (c c' : Conn) (resp : Response) :
  successfulReset env req c resp c' ->
  let ns := getRedisNamespace env req in
  kv c' !! countKey ns = Some (str "0")
  /\ kv c' !! phoneKey ns = kv c !! phoneKey ns
  /\ json resp = ResetOk (Int 0).
Proof.
  intros (Hm & (b & Hb & Hreset) & Hh & Hst) ns.
  assert (password b = JStr (adminPassword env)) as Hpw.
  { apply (post_authenticated env req b Hm Hb (Some c)). rewrite Hh. simpl.
    by rewrite Hst. }
  rewrite (post_reset env req b Hm Hb _ Hpw Hreset) in Hh.
  unfold handleReset in Hh. fold ns in Hh.
  destruct (outcome 0 c) as [e|] eqn:Hout.
  - destruct (set_fails (countKey ns) (str "0") c e Hout) as (c1 & Hset & _).
    rewrite Hset in Hh. injection Hh as <- _. done.
  - destruct (set_ok (countKey ns) (str "0") c Hout)
      as (c1 & Hset & Hkv & _).
    rewrite Hset in Hh. injection Hh as <- <-. rewrite Hkv.
    rewrite lookup_insert_eq, lookup_insert_ne; [done|].
    intros Heq. by apply (phoneKey_countKey ns).
Qed.

Lemma C7_witness :
  let c := Sample.after Sample.env (Sample.update "11 1234 5678")
             Sample.fresh in
  let c' := Sample.after Sample.env Sample.resetCounter c in
  kv c' !! countKey (str "default") = Some (str "0")
  /\ kv c' !! phoneKey (str "default") = kv c !! phoneKey (str "default")
  /\ json (handler Sample.env Sample.resetCounter (Some c)).1
     = ResetOk (Int 0).
Proof.
  intros c c'.
  apply (C7_reset_zeroes_counter_only Sample.env Sample.resetCounter c c').
  run_sample.
Defined.

(** C9, as stated, fails: the phone number is written, the read of the
    counter is rejected, the update reports the store failure, and the
    stored number has changed. *)
Lemma C9_counterexample :
  let req := Sample.update "11 1234 5678" in
  let c := Sample.failsSecond ∅ in
  let c' := Sample.after Sample.env req c in
  failedUpdate Sample.env req c
    {| status := 500; json := Failure (SaveFailed (str "ETIMEDOUT")) |} c'
  /\ kv c !! phoneKey (str "default") = None
  /\ kv c' !! phoneKey (str "default") = Some (str "5491112345678").
Proof.
  intros req c c'. split; [|split; vm_compute; reflexivity].
  run_sample.
Qed.

(** C9, amended. An update that reports a store failure leaves the
    stored counter unchanged.  The stored number is unchanged when the
    write of the number itself was rejected; when a later call was
    rejected, the number has already been overwritten with the new
    normalised number.  The counter is written only after the number
    has been. *)
Theorem C9_failed_update_keeps_counter
    (env : Env) (req : Request) (c c' : Conn) (resp : Response) :
  failedUpdate env req c resp c' ->
  let ns := getRedisNamespace env req in
  kv c' !! countKey ns = kv c !! countKey ns
  /\ exists b,
       body req = Some b
       /\ match outcome 0 c with
          | Some _ => kv c' = kv c
          | None =>
              kv c' = <[phoneKey ns := normalizePhoneNumber (phone b)]> (kv c)
          end.
Proof.
  intros (Hm & (b & Hb & Hreset) & Hh & (cause & Hjson)) ns.
  assert (password b = JStr (adminPassword env)) as Hpw.
  { destruct (decide (password b = JStr (adminPassword env))) as [|Hne];
      [done|].
    rewrite (post_wrong_password env req b Hm Hb _ Hne) in Hh.
    injection Hh as <- _. discriminate Hjson. }
  rewrite (post_update env req b Hm Hb _ Hpw Hreset) in Hh.
  unfold handleUpdate in Hh.
  destruct (truthy (phone b)); simpl in Hh;
    [|injection Hh as <- _; done].
  destruct (length (normalizePhoneNumber (phone b)) =? 13); simpl in Hh;
    [|injection Hh as <- _; done].
  fold ns in Hh.
  destruct (saveRecord_cases ns (normalizePhoneNumber (phone b)) c)
    as (c1 & Hcases).
  assert (kv c' = match outcome 0 c with
                  | Some _ => kv c
                  | None => <[phoneKey ns := normalizePhoneNumber (phone b)]>
                              (kv c)
                  end) as Hkv.
  { destruct (outcome 0 c), (outcome 1 c), (outcome 2 c);
      destruct Hcases as [Hsave Hkv]; rewrite Hsave in Hh;
      injection Hh as <- <-; done. }
  split.
  - rewrite Hkv. destruct (outcome 0 c); [done|].
    apply lookup_insert_ne, phoneKey_countKey.
  - exists b. split; [done|]. by destruct (outcome 0 c).
Qed.

Lemma C9_witness :
  let req := Sample.update "11 1234 5678" in
  let c := Sample.failsSecond Sample.stored in
  let c' := Sample.after Sample.env req c in
  kv c' !! countKey (str "default") = kv c !! countKey (str "default")
  /\ exists b,
       body req = Some b
       /\ match outcome 0 c with
          | Some _ => kv c' = kv c
          | None =>
              kv c' = <[phoneKey (str "default")
                          := normalizePhoneNumber (phone b)]> (kv c)
          end.
Proof.
  intros req c c'.
  apply (C9_failed_update_keeps_counter Sample.env req c c'
           {| status := 500; json := Failure (SaveFailed (str "ETIMEDOUT")) |}).
  run_sample.
Defined.

(** ** The handler: reads *)

(** C10, as stated, fails: the read of the number succeeds, the read of
    the counter is rejected, and the response carries the stored number,
    which is not the configured default. *)
Lemma C10_counterexample :
  let c := Sample.failsSecond Sample.stored in
  outcome 1 c = Some Sample.timeout
  /\ (handler Sample.env Sample.read (Some c)).1
     = {| status := 200;
          json := ReadOk (str "5491112345678")
                    (configuredMessage Sample.env) (Int 0) |}
  /\ configuredPhone Sample.env = str "5491157552283".
Proof. vm_compute. done. Qed.

(** C10, amended. A read during which the store is not configured, or
    a call is rejected, is answered with status 200, the configured
    message and a counter of 0, never with an error.  The number is the
    configured default when the store is not configured or the read of
    the number is rejected; when only the read of the counter is
    rejected, it is the stored number if there is a non-empty one, and
    the configured default otherwise. *)
Theorem C10_read_degrades_silently (env : Env) (req : Request) :
  method req = GET ->
  let ns := getRedisNamespace env req in
  let degraded phone :=
    {| status := 200;
       json := ReadOk phone (configuredMessage env) (Int 0) |} in
  handler env req None = (degraded (configuredPhone env), None)
  /\ forall (c : Conn) (e : Error),
       (outcome 0 c = Some e ->
        (handler env req (Some c)).1 = degraded (configuredPhone env))
       /\ (outcome 0 c = None -> outcome 1 c = Some e ->
           (handler env req (Some c)).1
           = degraded (orElse (kv c !! phoneKey ns) (configuredPhone env))).
Proof.
  intros Hm ns degraded. unfold handler. rewrite Hm. split; [done|].
  intros c e. unfold handleGet, readRecord. fold ns. split.
  - intros H0.
    destruct (get_fails (phoneKey ns) c e H0) as (c1 & -> & _). done.
  - intros H0 H1.
    destruct (get_ok (phoneKey ns) c H0) as (c1 & -> & _ & Hf & _).
    pose proof (outcome_tail 0 c c1 Hf) as H1'. rewrite H1 in H1'.
    destruct (get_fails (countKey ns) c1 e H1') as (c2 & -> & _). done.
Qed.

Lemma C10_witness :
  let c := Sample.failsSecond Sample.stored in
  let degraded phone :=
    {| status := 200;
       json := ReadOk phone (configuredMessage Sample.env) (Int 0) |} in
  handler Sample.env Sample.read None
  = (degraded (configuredPhone Sample.env), None)
  /\ (handler Sample.env Sample.read (Some c)).1
     = degraded (orElse (kv c !! phoneKey (str "default"))
                   (configuredPhone Sample.env)).
Proof.
  intros c degraded.
  destruct (C10_read_degrades_silently Sample.env Sample.read eq_refl)
    as [Hnone Hsome].
  split; [exact Hnone|].
  apply (Hsome c Sample.timeout); reflexivity.
Defined.

(** ** The normaliser: further properties *)

Section NormaliserMore.

Implicit Types (s d digits : jsstring) (c : ascii).

Lemma clean_idemp s : clean (clean s) = clean s.
Proof. apply clean_id, clean_allDigits. Qed.

Lemma normalize_digits_only s :
  normalizePhoneNumber (JStr s) =
  match clean s with
  | [] => []
  | cleaned =>
      let digits := localDigits cleaned in
      str "549" ++ (splitArea digits).1 ++ fitLocal (splitArea digits).2
  end.
Proof.
  unfold normalizePhoneNumber. simpl truthy. destruct s as [|c s]; [done|].
  cbn [isEmpty negb toString].
  destruct (clean (c :: s)) as [|c' cleaned]; [done|].
  cbn [isEmpty]. by destruct (splitArea _).
Qed.

(** X1. Only the digits of the input matter: two strings that hold the
    same digits in the same order are normalised alike, whatever
    separators, letters or other characters stand between them. *)
Theorem X1_same_digits_same_result (s1 s2 : jsstring) :
  List.filter isDigit s1 = List.filter isDigit s2 ->
  normalizePhoneNumber (JStr s1) = normalizePhoneNumber (JStr s2).
Proof.
  intros H. rewrite !normalize_digits_only, !clean_filter. by rewrite H.
Qed.

Lemma X1_witness :
  normalizePhoneNumber (JStr (str "(011) 4344-3600 int. x"))
  = normalizePhoneNumber (JStr (str "0 1 1 4 3 4 4 3 6 0 0")).
Proof.
  apply (X1_same_digits_same_result (str "(011) 4344-3600 int. x")
           (str "0 1 1 4 3 4 4 3 6 0 0")).
  vm_compute. reflexivity.
Defined.

(** X2. Which digits survive.  With [d] the digits left after the
    country code and the mobile prefix: from 10 digits on, the result is
    549, the first two digits of [d] and the last eight, the digits in
    between being dropped; with 8 or 9 digits it is 54911 and the last
    eight; with fewer it is 54911, zeros, and [d]. *)
Theorem X2_surviving_digits (s : jsstring) :
  clean s <> [] ->
  let d := localDigits (clean s) in
  (10 <= length d ->
   normalizePhoneNumber (JStr s)
   = str "549" ++ take 2 d ++ drop (length d - 8) d)
  /\ (8 <= length d < 10 ->
      normalizePhoneNumber (JStr s) = str "54911" ++ drop (length d - 8) d)
  /\ (length d < 8 ->
      normalizePhoneNumber (JStr s)
      = str "54911" ++ replicate (8 - length d) "0"%char ++ d).
Proof.
  intros Hne d. rewrite normalize_digits_only.
  destruct (clean s) as [|c cleaned] eqn:Hc; [done|]. fold d.
  cbv zeta. unfold splitArea, fitLocal, padStart.
  split; [|split]; intros Hlen.
  - assert ((10 <=? length d) = true) as -> by (apply Nat.leb_le; lia).
    cbn [fst snd]. rewrite length_drop.
    destruct (8 <? length d - 2) eqn:H8.
    + rewrite drop_drop. do 3 f_equal. apply Nat.ltb_lt in H8. lia.
    + apply Nat.ltb_ge in H8.
      assert ((length d - 2 <? 8) = false) as -> by (apply Nat.ltb_ge; lia).
      do 3 f_equal. lia.
  - assert ((10 <=? length d) = false) as -> by (apply Nat.leb_gt; lia).
    destruct ((6 <=? length d) && (length d <? 10)); cbn [fst snd];
      (destruct (8 <? length d) eqn:H8;
       [done|apply Nat.ltb_ge in H8;
             assert (length d = 8) as Hd by lia;
             assert ((length d <? 8) = false) as -> by (apply Nat.ltb_ge; lia);
             rewrite Hd; by rewrite drop_0]).
  - assert ((10 <=? length d) = false) as -> by (apply Nat.leb_gt; lia).
    assert ((8 <? length d) = false) as H8 by (apply Nat.ltb_ge; lia).
    assert ((length d <? 8) = true) as H8' by (apply Nat.ltb_lt; lia).
    destruct ((6 <=? length d) && (length d <? 10)); cbn [fst snd];
      by rewrite H8, H8'.
Qed.

End NormaliserMore.

Lemma X2_witness :
  normalizePhoneNumber (JStr (str "0054 9 (11) 4344-3600"))
  = str "549" ++ str "00" ++ str "43443600"
  /\ normalizePhoneNumber (JStr (str "4344-3600")) = str "5491143443600"
  /\ normalizePhoneNumber (JStr (str "44-3600")) = str "5491100443600".
Proof.
  destruct (X2_surviving_digits (str "0054 9 (11) 4344-3600")) as (H & _ & _);
    [vm_compute; discriminate|].
  destruct (X2_surviving_digits (str "4344-3600")) as (_ & H' & _);
    [vm_compute; discriminate|].
  destruct (X2_surviving_digits (str "44-3600")) as (_ & _ & H'');
    [vm_compute; discriminate|].
  split; [|split].
  - rewrite H; [reflexivity|vm_compute; lia].
  - rewrite H'; [reflexivity|vm_compute; lia].
  - rewrite H''; [reflexivity|vm_compute; lia].
Defined.

Lemma normalize_of_local (s d : jsstring) :
  allDigits s -> s <> [] -> localDigits s = d ->
  normalizePhoneNumber (JStr s)
  = str "549" ++ (splitArea d).1 ++ fitLocal (splitArea d).2.
Proof.
  intros Hs Hne <-. rewrite normalize_digits_only, (clean_id s Hs).
  by destruct s.
Qed.

Lemma stripCountry_54 (s : jsstring) : stripCountry (str "54" ++ s) = s.
Proof. reflexivity. Qed.

Lemma stripCountry_5 (c : ascii) (s : jsstring) :
  c <> "4"%char -> stripCountry (str "5" ++ c :: s) = c :: s.
Proof.
  intros Hc. unfold stripCountry.
  change (startsWith (str "5" ++ c :: s) (str "54"))
    with (true && (Ascii.eqb "4" c && true)).
  by rewrite (proj2 (Ascii.eqb_neq "4" c)) by congruence.
Qed.

Lemma stripCountry_other (c : ascii) (s : jsstring) :
  c <> "5"%char -> stripCountry (c :: s) = c :: s.
Proof.
  intros Hc. unfold stripCountry.
  change (startsWith (c :: s) (str "54"))
    with (Ascii.eqb "5" c && startsWith s (str "4")).
  change (startsWith (c :: s) (str "5")) with (Ascii.eqb "5" c && true).
  by rewrite (proj2 (Ascii.eqb_neq "5" c)) by congruence.
Qed.

Lemma stripMobile_9 (s : jsstring) : stripMobile (str "9" ++ s) = s.
Proof. reflexivity. Qed.

Lemma stripMobile_other (c : ascii) (s : jsstring) :
  c <> "9"%char -> stripMobile (c :: s) = c :: s.
Proof.
  intros Hc. unfold stripMobile.
  change (startsWith (c :: s) (str "9")) with (Ascii.eqb "9" c && true).
  by rewrite (proj2 (Ascii.eqb_neq "9" c)) by congruence.
Qed.

(** X3. A number may be given with or without its prefixes.  For a
    digit string [d] whose first digit is neither 5 nor 9, the inputs
    [d], 54 [d], 549 [d], 9 [d] and 59 [d] (the country code with its 4
    missing) are all normalised to the same number. *)
Theorem X3_prefixes_are_optional (c : ascii) (d : jsstring) :
  allDigits (c :: d) -> c <> "5"%char -> c <> "9"%char ->
  let plain := normalizePhoneNumber (JStr (c :: d)) in
  normalizePhoneNumber (JStr (str "54" ++ c :: d)) = plain
  /\ normalizePhoneNumber (JStr (str "549" ++ c :: d)) = plain
  /\ normalizePhoneNumber (JStr (str "9" ++ c :: d)) = plain
  /\ normalizePhoneNumber (JStr (str "59" ++ c :: d)) = plain.
Proof.
  intros Hd H5 H9 plain.
  assert (localDigits (c :: d) = c :: d) as Hplain.
  { unfold localDigits.
    by rewrite stripCountry_other, stripMobile_other. }
  assert (plain = str "549" ++ (splitArea (c :: d)).1
                    ++ fitLocal (splitArea (c :: d)).2) as ->
    by by apply normalize_of_local.
  repeat split; (apply normalize_of_local;
    [cbn; repeat first [exact Hd|apply List.Forall_cons; [reflexivity|]]
    |done|]); unfold localDigits.
  - by rewrite stripCountry_54, stripMobile_other.
  - change (str "549" ++ c :: d) with (str "54" ++ str "9" ++ c :: d).
    by rewrite stripCountry_54, stripMobile_9.
  - change (str "9" ++ c :: d) with ("9"%char :: c :: d).
    rewrite stripCountry_other by done. apply stripMobile_9.
  - change (str "59" ++ c :: d) with (str "5" ++ "9"%char :: c :: d).
    rewrite stripCountry_5 by done. apply stripMobile_9.
Qed.

Lemma X3_witness :
  let plain := normalizePhoneNumber (JStr (str "1143443600")) in
  normalizePhoneNumber (JStr (str "541143443600")) = plain
  /\ normalizePhoneNumber (JStr (str "5491143443600")) = plain
  /\ normalizePhoneNumber (JStr (str "91143443600")) = plain
  /\ normalizePhoneNumber (JStr (str "591143443600")) = plain.
Proof.
  apply (X3_prefixes_are_optional "1"%char (str "143443600")).
  - repeat constructor.
  - discriminate.
  - discriminate.
Defined.

(** ** Namespaces and keys *)

Lemma phoneKey_inj (ns ns' : jsstring) : phoneKey ns = phoneKey ns' -> ns = ns'.
Proof. apply app_inv_tail. Qed.

Lemma countKey_inj (ns ns' : jsstring) : countKey ns = countKey ns' -> ns = ns'.
Proof. apply app_inv_tail. Qed.

Lemma phoneKey_ne_countKey (ns ns' : jsstring) : phoneKey ns <> countKey ns'.
Proof.
  unfold phoneKey, countKey. intros H.
  apply app_inj_2 in H as [_ H]; [done|reflexivity].
Qed.

(** X4. The namespace is never the empty string, so the two keys of a
    request always carry a prefix before [:phone_number] and
    [:change_count]. *)
Theorem X4_namespace_never_empty (env : Env) (req : Request) :
  getRedisNamespace env req <> [].
Proof.
  unfold getRedisNamespace.
  destruct (trim (orElse (REDIS_NAMESPACE env) [])) as [|c ns]; [|done].
  cbn [isEmpty negb].
  by destruct (trim (orElse (host req) [])) as [|c host].
Qed.

(** ** What one request does to the store *)

Section Effects.

Context (env : Env) (req : Request) (c : Conn).

Let ns := getRedisNamespace env req.

(** Every way a request can leave the keys of the store. *)
Lemma run_effect :
  let m := kv c in
  let m' := kv (run env req c).2 in
  m' = m
  \/ (authenticated env req
      /\ (exists b, body req = Some b /\ reset b = JBool true)
      /\ status (run env req c).1 = 200
      /\ m' = <[countKey ns := str "0"]> m)
  \/ (authenticated env req
      /\ exists b,
           body req = Some b /\ reset b <> JBool true
           /\ is13Digits (normalizePhoneNumber (phone b)) = true
           /\ let written :=
                <[phoneKey ns := normalizePhoneNumber (phone b)]> m in
              (status (run env req c).1 = 500 /\ m' = written)
              \/ (status (run env req c).1 = 200
                  /\ m' = <[countKey ns
                              := numToString (nextCount (m !! countKey ns))]>
                            written)).
Proof.
  intros m m'. subst m m'. unfold run, handler.
  destruct (method req) eqn:Hm; cbn [fst snd default]; [by left| |  |by left].
  - left. unfold handleGet, readRecord. fold ns.
    destruct (outcome 0 c) as [e0|] eqn:H0.
    { by destruct (get_fails (phoneKey ns) c e0 H0) as (c1 & -> & Hkv1 & _). }
    destruct (get_ok (phoneKey ns) c H0) as (c1 & -> & Hkv1 & Hf1 & _).
    destruct (outcome 0 c1) as [e1|] eqn:H1.
    { destruct (get_fails (countKey ns) c1 e1 H1) as (c2 & -> & Hkv2 & _).
      simpl. congruence. }
    destruct (get_ok (countKey ns) c1 H1) as (c2 & -> & Hkv2 & _).
    simpl. congruence.
  - unfold handlePost. destruct (body req) as [b|] eqn:Hb; [|by left].
    case_bool_decide as Hpw; cbn [negb]; [|by left].
    assert (authenticated env req) as Hauth by (split; eauto).
    case_bool_decide as Hreset.
    + unfold handleReset. fold ns.
      destruct (outcome 0 c) as [e0|] eqn:H0.
      { left.
        by destruct (set_fails (countKey ns) (str "0") c e0 H0)
          as (c1 & -> & Hkv1 & _). }
      right. left.
      destruct (set_ok (countKey ns) (str "0") c H0) as (c1 & -> & Hkv1 & _).
      eauto 10.
    + unfold handleUpdate. rewrite normalize_length.
      destruct (truthy (phone b)); cbn [negb]; [|by left].
      destruct (is13Digits (normalizePhoneNumber (phone b))) eqn:H13;
        cbn [negb]; [|by left].
      fold ns.
      destruct (saveRecord_cases ns (normalizePhoneNumber (phone b)) c)
        as (c1 & Hcases).
      destruct (outcome 0 c), (outcome 1 c), (outcome 2 c);
        destruct Hcases as [-> Hkv1]; cbn [fst snd default status];
        first [by left | right; right; split; [done|]; exists b;
               split; [done|]; split; [done|]; split; [done|];
               first [by left | by right]].
Qed.

End Effects.

Lemma run_frame env req c (key : jsstring) :
  key <> phoneKey (getRedisNamespace env req) ->
  key <> countKey (getRedisNamespace env req) ->
  kv (run env req c).2 !! key = kv c !! key.
Proof.
  intros Hp Hc.
  destruct (run_effect env req c)
    as [-> | [(_ & _ & _ & ->) | (_ & b & _ & _ & _ & [[_ ->] | [_ ->]])]];
    by rewrite ?lookup_insert_ne.
Qed.

Lemma other_namespace_frame env req c (ns' : jsstring) :
  ns' <> getRedisNamespace env req ->
  kv (run env req c).2 !! phoneKey ns' = kv c !! phoneKey ns'
  /\ kv (run env req c).2 !! countKey ns' = kv c !! countKey ns'.
Proof.
  intros Hns. split; apply run_frame.
  - by intros ?%phoneKey_inj.
  - apply phoneKey_ne_countKey.
  - intros H. by apply (phoneKey_ne_countKey _ _ (eq_sym H)).
  - by intros ?%countKey_inj.
Qed.

(** X5. Namespaces are isolated: whatever the request, the number and
    the counter stored for any namespace other than the request's own
    are left as they were. *)
Theorem X5_other_namespaces_untouched
    (env : Env) (req : Request) (c : Conn) (ns' : jsstring) :
  ns' <> getRedisNamespace env req ->
  kv (run env req c).2 !! phoneKey ns' = kv c !! phoneKey ns'
  /\ kv (run env req c).2 !! countKey ns' = kv c !! countKey ns'.
Proof. apply other_namespace_frame. Qed.

Lemma X5_witness :
  let c := {| kv := {[ phoneKey (str "host:a.example") := str "5491143443600";
                       countKey (str "host:a.example") := str "7" ]};
              faults := []; log := [] |} in
  let c' := (run Sample.env (Sample.update "15 1234 5678") c).2 in
  kv c' !! phoneKey (str "host:a.example")
  = kv c !! phoneKey (str "host:a.example")
  /\ kv c' !! countKey (str "host:a.example")
     = kv c !! countKey (str "host:a.example").
Proof.
  intros c c'.
  apply (X5_other_namespaces_untouched Sample.env
           (Sample.update "15 1234 5678") c (str "host:a.example")).
  vm_compute. discriminate.
Defined.

(** X6. Nothing is written without the administrator secret: a request
    that is not a POST carrying the right password leaves every key of
    the store as it was. *)
Theorem X6_store_changes_need_the_secret
    (env : Env) (req : Request) (c : Conn) :
  ~ authenticated env req -> kv (run env req c).2 = kv c.
Proof.
  intros Hno.
  by destruct (run_effect env req c) as [-> | [(? & _) | (? & _)]].
Qed.

Lemma X6_witness :
  kv (run Sample.env
        (Sample.post (JStr (str "15 1234 5678")) JNull (JBool true))
        (Sample.failsSecond Sample.stored)).2
  = kv (Sample.failsSecond Sample.stored).
Proof.
  apply (X6_store_changes_need_the_secret Sample.env
           (Sample.post (JStr (str "15 1234 5678")) JNull (JBool true))).
  intros (_ & b & [= <-] & Hpw). vm_compute in Hpw. discriminate.
Defined.

(** X7. The stored numbers stay canonical: if every number in the store
    has 13 digits before a request, the same holds after it. *)
Theorem X7_stored_numbers_stay_canonical
    (env : Env) (req : Request) (c : Conn) :
  numbersCanonical (kv c) -> numbersCanonical (kv (run env req c).2).
Proof.
  intros Hinv ns' p.
  set (ns := getRedisNamespace env req).
  assert (forall (m : gmap jsstring jsstring) v,
            (forall q, m !! phoneKey ns' = Some q -> is13Digits q = true) ->
            forall q, <[countKey ns := v]> m !! phoneKey ns' = Some q ->
                      is13Digits q = true) as Hcount.
  { intros m v Hm q. rewrite lookup_insert_ne; [apply Hm|].
    intros H. by apply (phoneKey_ne_countKey ns' ns). }
  assert (forall q0, is13Digits q0 = true ->
            forall q, <[phoneKey ns := q0]> (kv c) !! phoneKey ns' = Some q ->
                      is13Digits q = true) as Hphone.
  { intros q0 Hq0 q. destruct (decide (phoneKey ns = phoneKey ns')) as [->|].
    - rewrite lookup_insert_eq. by intros [= <-].
    - rewrite lookup_insert_ne by done. apply Hinv. }
  destruct (run_effect env req c)
    as [-> | [(_ & _ & _ & ->) | (_ & b & _ & _ & H13 & [[_ ->] | [_ ->]])]];
    fold ns.
  - apply Hinv.
  - apply Hcount, Hinv.
  - by apply Hphone.
  - apply Hcount. by apply Hphone.
Qed.

Lemma X7_witness :
  numbersCanonical
    (kv (run Sample.env (Sample.update "15 1234 5678")
           {| kv := ∅; faults := []; log := [] |}).2).
Proof.
  apply (X7_stored_numbers_stay_canonical Sample.env
           (Sample.update "15 1234 5678")).
  intros ns p. simpl. by rewrite lookup_empty.
Defined.



(** ** Reads *)




(** ** Rejections *)

(** X10. A request answered with 400, 401 or 405 has not reached the
    store: the connection is handed back as it was, without a call. *)
Theorem X10_rejections_issue_no_call
    (env : Env) (req : Request) (redis : option Conn) :
  let r := handler env req redis in
  status r.1 = 400 \/ status r.1 = 401 \/ status r.1 = 405 ->
  r.2 = redis.
Proof.
  intros r Hst. subst r. unfold handler in *.
  destruct (method req); [done| |  |done].
  - unfold handleGet in Hst. exfalso.
    destruct redis as [c|]; [destruct (readRecord _ c) as [[? ?] ?]|];
      simpl in Hst; intuition discriminate.
  - unfold handlePost in *. destruct (body req) as [b|]; [|done].
    destruct (negb _); [done|]. destruct (bool_decide _).
    + unfold handleReset in *. exfalso.
      destruct redis as [c|]; [destruct (Redis.set _ _ c) as [[?|?] ?]|];
        simpl in Hst; intuition discriminate.
    + unfold handleUpdate in *. destruct (negb (truthy _)); [done|].
      destruct (negb (_ =? 13)); [done|]. exfalso.
      destruct redis as [c|]; [destruct (saveRecord _ _ c) as [[?|?] ?]|];
        simpl in Hst; intuition discriminate.
Qed.

Lemma X10_witness :
  (handler Sample.env (Sample.update "no digits")
     (Some (Sample.failsSecond Sample.stored))).2
  = Some (Sample.failsSecond Sample.stored).
Proof.
  apply (X10_rejections_issue_no_call Sample.env (Sample.update "no digits")
           (Some (Sample.failsSecond Sample.stored))).
  left. reflexivity.
Defined.

(** ** Requests in a row *)



Lemma successfulReset_inv env req c resp c' :
  successfulReset env req c resp c' ->
  kv c' = <[countKey (getRedisNamespace env req) := str "0"]> (kv c).
Proof.
  intros (Hm & (b & Hb & Hreset) & Hh & Hst).
  assert (password b = JStr (adminPassword env)) as Hpw.
  { apply (post_authenticated env req b Hm Hb (Some c)). rewrite Hh. simpl.
    by rewrite Hst. }
  rewrite (post_reset env req b Hm Hb _ Hpw Hreset) in Hh.
  unfold handleReset in Hh. set (ns := getRedisNamespace env req) in *.
  destruct (outcome 0 c) as [e|] eqn:Hout.
  - destruct (set_fails (countKey ns) (str "0") c e Hout) as (c1 & Hset & _).
    rewrite Hset in Hh. injection Hh as <- _. done.
  - destruct (set_ok (countKey ns) (str "0") c Hout)
      as (c1 & Hset & Hkv & _).
    rewrite Hset in Hh. by injection Hh as <- <-.
Qed.

(** A read on which both calls succeed. *)
Lemma read_ok env req c :
  method req = GET -> outcome 0 c = None -> outcome 1 c = None ->
  let ns := getRedisNamespace env req in
  (handler env req (Some c)).1
  = {| status := 200;
       json := ReadOk (orElse (kv c !! phoneKey ns) (configuredPhone env))
                 (configuredMessage env)
                 (readCount (kv c !! countKey ns)) |}.
Proof.
  intros Hm H0 H1 ns. unfold handler. rewrite Hm.
  unfold handleGet, readRecord. fold ns.
  destruct (get_ok (phoneKey ns) c H0) as (c1 & -> & Hkv1 & Hf1 & _).
  pose proof (outcome_tail 0 c c1 Hf1) as H1'. rewrite H1 in H1'.
  destruct (get_ok (countKey ns) c1 H1') as (c2 & -> & _).
  by rewrite Hkv1.
Qed.

Lemma update_stored env req c c' resp :
  successfulUpdate env req c resp c' ->
  let ns := getRedisNamespace env req in
  exists newCount normalizedPhone,
    json resp = UpdateOk newCount normalizedPhone
    /\ is13Digits normalizedPhone = true
    /\ kv c' !! phoneKey ns = Some normalizedPhone
    /\ kv c' !! countKey ns = Some (numToString newCount).
Proof.
  intros Hok ns.
  destruct (successfulUpdate_inv _ _ _ _ _ Hok) as (b & _ & H13 & -> & ->).
  fold ns. eexists _, _. split; [done|]. split; [done|].
  rewrite lookup_insert_eq, lookup_insert_ne, lookup_insert_eq; [done|].
  intros H. by apply (phoneKey_ne_countKey ns ns).
Qed.

(** X11. A 200 answer to an update is truthful: the number it reports
    has 13 digits and is the number the store then holds for the
    namespace, and the counter it reports is the one the store then
    holds. *)
Theorem X11_update_reports_what_is_stored
    (env : Env) (req : Request) (c c' : Conn) (resp : Response) :
  successfulUpdate env req c resp c' ->
  let ns := getRedisNamespace env req in
  exists newCount normalizedPhone,
    json resp = UpdateOk newCount normalizedPhone
    /\ is13Digits normalizedPhone = true
    /\ kv c' !! phoneKey ns = Some normalizedPhone
    /\ kv c' !! countKey ns = Some (numToString newCount).
Proof. apply update_stored. Qed.

Lemma X11_witness :
  let req := Sample.update "15 1234 5678" in
  let c' := Sample.after Sample.env req Sample.fresh in
  exists newCount normalizedPhone,
    json (handler Sample.env req (Some Sample.fresh)).1
    = UpdateOk newCount normalizedPhone
    /\ is13Digits normalizedPhone = true
    /\ kv c' !! phoneKey (str "default") = Some normalizedPhone
    /\ kv c' !! countKey (str "default") = Some (numToString newCount).
Proof.
  intros req c'.
  apply (X11_update_reports_what_is_stored Sample.env req Sample.fresh c').
  run_sample.
Defined.



(** X13. After a successful reset the count starts again: the next
    successful update in the namespace reports the counter 1, and a read
    on which both calls succeed reports the counter 0. *)
Theorem X13_counting_restarts_after_reset
    (env : Env) (req : Request) (c c1 : Conn) (resp : Response) :
  successfulReset env req c resp c1 ->
  let ns := getRedisNamespace env req in
  (forall req2 resp2 c2,
      successfulUpdate env req2 c1 resp2 c2 ->
      getRedisNamespace env req2 = ns ->
      exists p, json resp2 = UpdateOk (Int 1) p)
  /\ (forall req',
        method req' = GET -> getRedisNamespace env req' = ns ->
        outcome 0 c1 = None -> outcome 1 c1 = None ->
        exists p,
          (handler env req' (Some c1)).1
          = {| status := 200;
               json := ReadOk p (configuredMessage env) (Int 0) |}).
Proof.
  intros Hreset ns.
  assert (kv c1 !! countKey ns = Some (str "0")) as Hzero.
  { rewrite (successfulReset_inv _ _ _ _ _ Hreset). apply lookup_insert_eq. }
  split.
  - intros req2 resp2 c2 Hok Hns.
    destruct (successfulUpdate_inv _ _ _ _ _ Hok) as (b & _ & _ & -> & _).
    rewrite Hns, Hzero. simpl. eauto.
  - intros req' Hm Hns H0 H1.
    rewrite (read_ok env req' c1 Hm H0 H1), Hns, Hzero. eauto.
Qed.

Lemma X13_witness :
  let c := Sample.after Sample.env (Sample.update "11 1234 5678")
             Sample.fresh in
  let c1 := Sample.after Sample.env Sample.resetCounter c in
  (exists p, json (handler Sample.env (Sample.update "15 1234 5678")
                     (Some c1)).1 = UpdateOk (Int 1) p)
  /\ (exists p, (handler Sample.env Sample.read (Some c1)).1
                = {| status := 200;
                     json := ReadOk p (configuredMessage Sample.env)
                               (Int 0) |}).
Proof.
  intros c c1.
  destruct (X13_counting_restarts_after_reset Sample.env Sample.resetCounter
              c c1 {| status := 200; json := ResetOk (Int 0) |})
    as [Hupdate Hread]; [run_sample|].
  split.
  - apply (Hupdate (Sample.update "15 1234 5678") _
             (Sample.after Sample.env (Sample.update "15 1234 5678") c1));
      [run_sample|reflexivity].
  - apply (Hread Sample.read); reflexivity.
Defined.

(** ** Without a store *)

(** X14. When the handle is left [null] at start-up, no POST is ever
    answered with 200, and the text of a store error names the true
    cause: "not initialised" is sent only when [REDIS_URL] was set and
    the constructor threw, "not configured" only when [REDIS_URL] is
    missing or empty. *)
Theorem X14_no_store_no_success
    (env : Env) (newRedis : jsstring -> Error + Conn) (req : Request) :
  initRedis env newRedis = None ->
  method req = POST ->
  let r := handler env req (initRedis env newRedis) in
  status r.1 <> 200
  /\ r.2 = None
  /\ (json r.1 = Failure RedisNotInitialised ->
      exists url e, REDIS_URL env = Some url /\ url <> []
                    /\ newRedis url = inl e)
  /\ (json r.1 = Failure RedisNotConfigured ->
      orElse (REDIS_URL env) [] = []).
Proof.
  intros Hinit Hm r. subst r. rewrite Hinit. unfold handler. rewrite Hm.
  unfold handlePost. destruct (body req) as [b|]; [|done].
  destruct (negb _); [done|]. destruct (bool_decide _); [done|].
  unfold handleUpdate. destruct (negb (truthy _)); [done|].
  destruct (negb (_ =? 13)); [done|]. cbn [fst snd status json].
  split; [done|]. split; [done|].
  unfold initRedis in Hinit.
  destruct (REDIS_URL env) as [[|u url]|]; [by split|  |by split].
  split; [intros _|done].
  destruct (newRedis (u :: url)) as [e|conn] eqn:Hnew; [|done].
  by exists (u :: url), e.
Qed.

Lemma X14_witness :
  let r := handler Sample.env (Sample.update "15 1234 5678")
             (initRedis Sample.env (fun _ => inr Sample.fresh)) in
  status r.1 <> 200
  /\ r.2 = None
  /\ (json r.1 = Failure RedisNotInitialised ->
      exists url e, REDIS_URL Sample.env = Some url /\ url <> []
                    /\ (fun _ : jsstring => @inr Error Conn Sample.fresh) url
                       = inl e)
  /\ (json r.1 = Failure RedisNotConfigured ->
      orElse (REDIS_URL Sample.env) [] = []).
Proof.
  apply (X14_no_store_no_success Sample.env (fun _ => inr Sample.fresh)
           (Sample.update "15 1234 5678")); reflexivity.
Defined.

(** ** White space around the namespace *)

Lemma trimStart_head (s : jsstring) :
  match trimStart s with
  | [] => True
  | c :: _ => isSpace c = false
  end.
Proof.
  induction s as [|c s IH]; simpl; [done|].
  by destruct (isSpace c) eqn:Hc.
Qed.

Lemma trimStart_suffix (s : jsstring) : exists w, s = w ++ trimStart s.
Proof.
  induction s as [|c s [w IH]]; simpl; [by exists []|].
  destruct (isSpace c); [|by exists []].
  exists (c :: w). simpl. by f_equal.
Qed.

(** A trimmed string is empty, or begins and ends with a character
    that is not white space. *)
Lemma trim_ends (s : jsstring) :
  trim s = []
  \/ (exists c t, trim s = c :: t /\ isSpace c = false)
     /\ (exists t c, trim s = t ++ [c] /\ isSpace c = false).
Proof.
  unfold trim. set (t := trimStart s).
  pose proof (trimStart_head s) as Ht. fold t in Ht.
  pose proof (trimStart_head (rev t)) as Hu.
  destruct (trimStart_suffix (rev t)) as [w Hw].
  destruct (trimStart (rev t)) as [|c u]; [by left|right].
  split; [|by exists (rev u), c].
  apply (f_equal (fun l => rev l)) in Hw.
  rewrite rev_involutive, rev_app_distr in Hw.
  destruct (rev (c :: u)) as [|x xs] eqn:Hrev.
  { apply (f_equal length) in Hrev. rewrite length_rev in Hrev. done. }
  rewrite Hw in Ht. simpl in Ht. eauto.
Qed.

(** X15. The namespace never begins or ends with white space: an
    explicit [REDIS_NAMESPACE] and the host are trimmed before use, so
    padding them with blanks does not address another record. *)
Theorem X15_namespace_is_trimmed (env : Env) (req : Request) :
  let ns := getRedisNamespace env req in
  (exists c t, ns = c :: t /\ isSpace c = false)
  /\ (exists t c, ns = t ++ [c] /\ isSpace c = false).
Proof.
  unfold getRedisNamespace.
  pose proof (trim_ends (orElse (REDIS_NAMESPACE env) [])) as Hns.
  pose proof (trim_ends (orElse (host req) [])) as Hhost.
  destruct (trim (orElse (REDIS_NAMESPACE env) [])) as [|c t].
  - cbn [isEmpty negb].
    destruct (trim (orElse (host req) [])) as [|c t]; cbn [isEmpty negb].
    + split; [by eexists _, _|]. by exists (str "defaul"), "t"%char.
    + destruct Hhost as [|[_ (t' & c' & -> & Hc')]]; [done|].
      split; [by eexists _, _|].
      exists (str "host:" ++ t'), c'. by rewrite <- app_assoc.
  - cbn [isEmpty negb]. destruct Hns as [|[Hhead Hlast]]; done.
Qed.
